(** * Students web service: request handlers, validation and counters

    A shallow embedding of [src/application/app.py]: the [StudentModel]
    validation rules, the four request handlers of [StudentsServer] and
    the route table built by [add_routes], together with the part of the
    collaborators the handlers rely on (the metrics counters, the
    [students] collection of the document store and the joke provider).

    Conventions.
    - Python values after JSON parsing are the inputs: a payload field is
      the parsed value, a [gpa] is the finite number the parser produced
      (a rational; comparisons on finite floats agree with it).
    - A BSON [ObjectId] is a 12-byte value, kept as the 96-bit number it
      denotes; [ObjectId.str] prints its 24 hexadecimal digits and
      [ObjectId.is_valid] accepts a string of 24 hexadecimal digits.
    - The store keeps one document per [_id]: [insert_one] files a
      document under the [_id] it brings (generating one only when it
      brings none) and refuses an [_id] already present; [find_one]
      returns the first document matching an equality filter.
    - The address grammar behind [EmailStr] is a parameter of the
      development.
    - The framework validates the body of a creation request before the
      handler is called and answers 422 when validation fails; a dict
      returned by a handler is sent with status 200; an exception that
      leaves a handler ends the request as a fault.
    - Handlers run in a state-and-exception monad over [World]; a raised
      exception keeps the state changes made before it, as in Python.
      Routes call the handlers as bound methods of the server instance.
    - The logger calls of the handlers have no effect on responses,
      counters or the store and are left out. *)

From Stdlib Require Import List String Ascii Bool NArith ZArith QArith Lia.
Import ListNotations.
Local Close Scope Q_scope.
Local Open Scope string_scope.
Local Open Scope list_scope.

(** ** BSON object identifiers *)

Module ObjectId.

(** The 96-bit value of the identifier. *)
Definition t := N.

Definition width : nat := 24.

(** Value of one hexadecimal digit, either case, as [bytes.fromhex]
    reads it. *)
Definition hex_value (c : ascii) : option N :=
  let n := N_of_ascii c in
  if (48 <=? n)%N && (n <=? 57)%N then Some (n - 48)%N
  else if (97 <=? n)%N && (n <=? 102)%N then Some (n - 87)%N
  else if (65 <=? n)%N && (n <=? 70)%N then Some (n - 55)%N
  else None.

(** The lowercase digit [binascii.hexlify] prints for a value below 16. *)
Definition hex_char (d : N) : ascii :=
  if (d <? 10)%N then ascii_of_N (48 + d) else ascii_of_N (87 + d).

Definition is_hex (c : ascii) : bool :=
  match hex_value c with Some _ => true | None => false end.

(** A digit as [hexlify] prints it: [0-9a-f]. *)
Definition is_lower_hex (c : ascii) : bool :=
  let n := N_of_ascii c in
  ((48 <=? n)%N && (n <=? 57)%N) || ((97 <=? n)%N && (n <=? 102)%N).

(** [ObjectId.is_valid(value)] for a string: 24 hexadecimal digits. *)
Definition is_valid (s : string) : bool :=
  Nat.eqb (String.length s) width && forallb is_hex (list_ascii_of_string s).

Definition digit (c : ascii) : N :=
  match hex_value c with Some d => d | None => 0%N end.

(** [ObjectId(value)] on a valid string: the bytes [fromhex] yields,
    read as one big-endian number. *)
Definition of_digits (cs : list ascii) : t :=
  fold_left (fun acc c => (16 * acc + digit c)%N) cs 0%N.

Definition of_string (s : string) : t := of_digits (list_ascii_of_string s).

(** The last [k] hexadecimal digits of [n], most significant first. *)
Fixpoint hex_digits (k : nat) (n : N) : list ascii :=
  match k with
  | O => []
  | S k' => hex_digits k' (n / 16)%N ++ [hex_char (n mod 16)%N]
  end.

(** [str(oid)]: the 24 lowercase hexadecimal digits of the 12 bytes. *)
Definition str (o : t) : string := string_of_list_ascii (hex_digits width o).

(** A string in the form [str] prints: 24 digits of [0-9a-f]. *)
Definition is_canonical (s : string) : bool :=
  Nat.eqb (String.length s) width
  && forallb is_lower_hex (list_ascii_of_string s).

End ObjectId.

Definition ObjectId := ObjectId.t.

(** ** Documents and the document store *)

(** Values a stored document or a JSON body holds: text, a number, or a
    native store identifier (which has no JSON form). *)
Inductive value : Type :=
| VStr (s : string)
| VNum (q : Q)
| VOid (o : ObjectId).

(** A Python dict with string keys, in insertion order. *)
Definition document := list (string * value).

Definition value_eqb (a b : value) : bool :=
  match a, b with
  | VStr s1, VStr s2 => String.eqb s1 s2
  | VNum q1, VNum q2 => Qeq_bool q1 q2
  | VOid o1, VOid o2 => N.eqb o1 o2
  | _, _ => false
  end.

Fixpoint lookup (k : string) (d : document) : option value :=
  match d with
  | [] => None
  | (k', v) :: d' => if String.eqb k k' then Some v else lookup k d'
  end.

(** Exceptions the modelled code raises. *)
Inductive exn : Type :=
| TypeError (what : string)
| NameError (name : string)
| KeyError (key : string)
| DuplicateKeyError (id : value).

(** The [students] collection: its documents, oldest first. *)
Definition collection := list document.

Record InsertOneResult : Type := { inserted_id : value }.

(** Does document [d] satisfy the equality filter [flt]? *)
Definition matches (flt d : document) : bool :=
  forallb (fun kv => match lookup (fst kv) d with
                     | Some v => value_eqb v (snd kv)
                     | None => false
                     end) flt.

(** Is some stored document filed under identifier [idv]? *)
Definition holds_id (idv : value) (c : collection) : bool :=
  existsb (matches [("_id", idv)]) c.

(** [collection.insert_one(doc)]: a document without [_id] gets the
    identifier [gen] the driver generates; an [_id] already present in
    the collection is refused; otherwise the document is appended. *)
Definition insert_one (gen : ObjectId) (doc : document) (c : collection)
  : (exn + InsertOneResult) * collection :=
  let doc' := match lookup "_id" doc with
              | Some _ => doc
              | None => ("_id", VOid gen) :: doc
              end in
  let id := match lookup "_id" doc with Some v => v | None => VOid gen end in
  if holds_id id c
  then (inl (DuplicateKeyError id), c)
  else (inr {| inserted_id := id |}, c ++ [doc']).

(** [collection.find_one(filter)]: the first matching document, or
    [None]. *)
Definition find_one (flt : document) (c : collection) : option document :=
  find (matches flt) c.

(** ** Metrics counters *)

Inductive counter : Type :=
| REQUESTS
| HEALTHCHECK_REQUESTS
| MAIN_ENDPOINT_REQUESTS
| STUDENT_CREATE_REQUESTS
| JOKE_ENDPOINT_REQUESTS.

Definition counter_eqb (a b : counter) : bool :=
  match a, b with
  | REQUESTS, REQUESTS
  | HEALTHCHECK_REQUESTS, HEALTHCHECK_REQUESTS
  | MAIN_ENDPOINT_REQUESTS, MAIN_ENDPOINT_REQUESTS
  | STUDENT_CREATE_REQUESTS, STUDENT_CREATE_REQUESTS
  | JOKE_ENDPOINT_REQUESTS, JOKE_ENDPOINT_REQUESTS => true
  | _, _ => false
  end.

(** The process-wide registry: the current value of every counter,
    under the name it is exported with. *)
Record registry : Type := {
  server_requests_total : N;
  healthcheck_requests_total : N;
  main_requests_total : N;
  students_create_total : N;
  joke_requests_total : N
}.

(** All counters start at zero. *)
Definition registry0 : registry :=
  {| server_requests_total := 0;
     healthcheck_requests_total := 0;
     main_requests_total := 0;
     students_create_total := 0;
     joke_requests_total := 0 |}.

(** The current value of counter [c]. *)
Definition read (c : counter) (r : registry) : N :=
  match c with
  | REQUESTS => server_requests_total r
  | HEALTHCHECK_REQUESTS => healthcheck_requests_total r
  | MAIN_ENDPOINT_REQUESTS => main_requests_total r
  | STUDENT_CREATE_REQUESTS => students_create_total r
  | JOKE_ENDPOINT_REQUESTS => joke_requests_total r
  end.

(** The registry with counter [c] set to [v]. *)
Definition write (c : counter) (v : N) (r : registry) : registry :=
  {| server_requests_total :=
       if counter_eqb c REQUESTS then v else server_requests_total r;
     healthcheck_requests_total :=
       if counter_eqb c HEALTHCHECK_REQUESTS then v
       else healthcheck_requests_total r;
     main_requests_total :=
       if counter_eqb c MAIN_ENDPOINT_REQUESTS then v
       else main_requests_total r;
     students_create_total :=
       if counter_eqb c STUDENT_CREATE_REQUESTS then v
       else students_create_total r;
     joke_requests_total :=
       if counter_eqb c JOKE_ENDPOINT_REQUESTS then v
       else joke_requests_total r |}.

(** ** The world a handler runs in *)

(** One call on the store handle, as the store receives it. *)
Inductive db_call : Type :=
| CallInsertOne (doc : document)
| CallFindOne (flt : document).

Record World : Type := {
  metrics : registry;
  students : collection;
  db_log : list db_call   (* calls received by the store, oldest first *)
}.

Inductive result (A : Type) : Type :=
| Ok (a : A)
| Raise (e : exn).
Arguments Ok {A} a.
Arguments Raise {A} e.

Definition M (A : Type) : Type := World -> result A * World.

Definition ret {A} (a : A) : M A := fun w => (Ok a, w).

Definition bind {A B} (m : M A) (k : A -> M B) : M B :=
  fun w => match m w with
           | (Ok a, w') => k a w'
           | (Raise e, w') => (Raise e, w')
           end.

Definition raise {A} (e : exn) : M A := fun w => (Raise e, w).

Declare Scope py_scope.
Delimit Scope py_scope with py.
Notation "x <- c ;; k" := (bind c (fun x => k))
  (at level 61, c at next level, right associativity) : py_scope.
Notation "c ;; k" := (bind c (fun _ => k))
  (at level 61, right associativity) : py_scope.
Local Open Scope py_scope.

(** [Counter.inc()]. *)
Definition inc (c : counter) : M unit :=
  fun w => (Ok tt,
            {| metrics := write c (read c (metrics w) + 1)%N (metrics w);
               students := students w;
               db_log := db_log w |}).

(** [await collection.insert_one(doc)] on the shared store handle. *)
Definition db_insert_one (gen : ObjectId) (doc : document) : M InsertOneResult :=
  fun w =>
    let '(r, c') := insert_one gen doc (students w) in
    let w' := {| metrics := metrics w;
                 students := c';
                 db_log := db_log w ++ [CallInsertOne doc] |} in
    match r with
    | inr res => (Ok res, w')
    | inl e => (Raise e, w')
    end.

(** [await collection.find_one(filter)] on the shared store handle. *)
Definition db_find_one (flt : document) : M (option document) :=
  fun w => (Ok (find_one flt (students w)),
            {| metrics := metrics w;
               students := students w;
               db_log := db_log w ++ [CallFindOne flt] |}).

(** ** The student model and its validation *)

(** The JSON object posted to [/api/student], after parsing: every key
    may be absent. *)
Record Payload : Type := {
  p_id : option string;      (* key "_id" *)
  p_name : option string;
  p_email : option string;
  p_course : option string;
  p_gpa : option Q
}.

(** A validated [StudentModel] instance. *)
Record StudentModel : Type := {
  id : ObjectId;
  name : string;
  email : string;
  course : string;
  gpa : Q
}.

(** One entry of a validation error: the offending field and why. *)
Record ErrorDetail : Type := { loc : string; msg : string }.

(** The reply of [requests.get(url)]. *)
Record Reply : Type := { reply_status : Z; reply_json : document }.

(** What the surroundings decide during one request. *)
Record Env : Type := {
  new_PyObjectId : ObjectId;    (* the value [PyObjectId()] returns *)
  driver_ObjectId : ObjectId;   (* the identifier the store would generate *)
  requests_get : string -> Reply
}.

(** [PyObjectId.validate(value)]. *)
Definition PyObjectId_validate (v : string) : string + ObjectId :=
  if negb (ObjectId.is_valid v) then inl "Invalid objectid"
  else inr (ObjectId.of_string v).

(** [Field(...)]: the key must be present. *)
Definition required {A} (field : string) (v : option A) : ErrorDetail + A :=
  match v with
  | Some a => inr a
  | None => inl {| loc := field; msg := "field required" |}
  end.

Definition errors_of {A} (r : ErrorDetail + A) : list ErrorDetail :=
  match r with inl e => [e] | inr _ => [] end.

(** [id: PyObjectId = Field(default_factory=PyObjectId, alias="_id")]. *)
Definition validate_id (env : Env) (v : option string) : ErrorDetail + ObjectId :=
  match v with
  | None => inr (new_PyObjectId env)
  | Some s => match PyObjectId_validate s with
              | inl m => inl {| loc := "_id"; msg := m |}
              | inr o => inr o
              end
  end.

(** [gpa: float = Field(..., le=4.0)]. *)
Definition validate_gpa (v : option Q) : ErrorDetail + Q :=
  match required "gpa" v with
  | inl e => inl e
  | inr g => if Qle_bool g (4 # 1) then inr g
             else inl {| loc := "gpa";
                         msg := "ensure this value is less than or equal to 4.0" |}
  end.

Definition HTTP_200_OK : Z := 200.
Definition HTTP_201_CREATED : Z := 201.
Definition HTTP_422_UNPROCESSABLE_ENTITY : Z := 422.

(** A JSON response body. *)
Inductive content : Type :=
| Null
| Object (d : document)
| Detail (errors : list ErrorDetail).

Record Response : Type := { status_code : Z; body : content }.

Definition json_serializable (v : value) : bool :=
  match v with VOid _ => false | _ => true end.

(** [JSONResponse(status_code=..., content=...)]: rendering fails on a
    value with no JSON form. *)
Definition JSONResponse (status : Z) (c : option document) : M Response :=
  match c with
  | None => ret {| status_code := status; body := Null |}
  | Some d =>
      if forallb (fun kv => json_serializable (snd kv)) d
      then ret {| status_code := status; body := Object d |}
      else raise (TypeError "Object of type ObjectId is not JSON serializable")
  end.

(** [jsonable_encoder(student)]: the model as a dict, by alias, with the
    identifier through [json_encoders = {ObjectId: str}]. *)
Definition jsonable_encoder (s : StudentModel) : document :=
  [ ("_id", VStr (ObjectId.str (id s)));
    ("name", VStr (name s));
    ("email", VStr (email s));
    ("course", VStr (course s));
    ("gpa", VNum (gpa s)) ].

(** Names bound at module level in [application/app.py]. *)
Definition module_globals : list string :=
  [ "Optional"; "logging"; "FastAPI"; "Body"; "status"; "JSONResponse";
    "jsonable_encoder"; "serve"; "HyperCornConfig"; "BaseModel"; "Field";
    "EmailStr"; "ObjectId"; "Counter"; "REQUESTS"; "HEALTHCHECK_REQUESTS";
    "MAIN_ENDPOINT_REQUESTS"; "STUDENT_CREATE_REQUESTS";
    "JOKE_ENDPOINT_REQUESTS"; "PyObjectId"; "StudentModel";
    "UpdateStudentModel"; "app"; "StudentsServer" ].

(** Reading a global name: [NameError] when the module never bound it. *)
Definition load_global (n : string) : M unit :=
  if existsb (String.eqb n) module_globals then ret tt
  else raise (NameError n).

(** [d[key]] on a dict. *)
Definition getitem (d : document) (k : string) : M value :=
  match lookup k d with
  | Some v => ret v
  | None => raise (KeyError k)
  end.

(** Calling a method through an instance: Python passes the instance
    first, so a function declared with [params] accepts [nargs] further
    arguments only when it declares one parameter more. *)
Definition bound_call {A} (params : list string) (nargs : nat) (f : M A) : M A :=
  if Nat.eqb (List.length params) (S nargs) then f
  else raise (TypeError "wrong number of positional arguments").

(** ** The request handlers of [StudentsServer] *)

Definition read_main : M Response :=
  inc REQUESTS ;;
  inc MAIN_ENDPOINT_REQUESTS ;;
  JSONResponse HTTP_200_OK (Some [("msg", VStr "Hello World")]).

Definition health_check : M Response :=
  inc REQUESTS ;;
  inc HEALTHCHECK_REQUESTS ;;
  JSONResponse HTTP_200_OK (Some [("health", VStr "ok")]).

Definition create_student (env : Env) (student : StudentModel) : M Response :=
  inc STUDENT_CREATE_REQUESTS ;;
  inc REQUESTS ;;
  let student := jsonable_encoder student in
  new_student <- db_insert_one (driver_ObjectId env) student ;;
  created_student <- db_find_one [("_id", inserted_id new_student)] ;;
  JSONResponse HTTP_201_CREATED created_student.

(** [tell_joke] returns a plain dict. *)
Definition tell_joke (env : Env) : M document :=
  inc REQUESTS ;;
  inc JOKE_ENDPOINT_REQUESTS ;;
  let url := "https://official-joke-api.appspot.com/random_joke" in
  load_global "requests" ;;
  let response := requests_get env url in
  if negb (Z.eqb (reply_status response) 200)
  then ret [("error", VStr "Failed to get a joke")]
  else
    let joke := reply_json response in
    setup <- getitem joke "setup" ;;
    punchline <- getitem joke "punchline" ;;
    ret [("setup", setup); ("punchline", punchline)].

(** Parameter lists of the handlers, as declared. *)
Definition read_main_params : list string := ["self"].
Definition health_check_params : list string := ["self"].
Definition create_student_params : list string := ["self"; "student"].
Definition tell_joke_params : list string := [].

(** ** Routes *)

(** The four routes [add_routes] registers. *)
Inductive Request : Type :=
| GET_health
| POST_api_student (payload : Payload)
| GET_hello
| GET_joke.

(** What the client gets: a response, or the unhandled fault that ends
    the request. *)
Inductive Outcome : Type :=
| Responded (r : Response)
| Fault (e : exn).

Definition outcome_of (r : result Response) : Outcome :=
  match r with Ok x => Responded x | Raise e => Fault e end.

(** ** The partial-update model *)

(** A validated [UpdateStudentModel] instance: every field optional. *)
Module UpdateStudentModel.

Record t : Type := {
  name : option string;
  email : option string;
  course : option string;
  gpa : option Q
}.

End UpdateStudentModel.

(** ** Configuration *)

(** The process environment, [os.environ]: the first binding of a name
    is the one in force. *)
Definition environ := list (string * string).

Fixpoint getenv (k : string) (e : environ) : option string :=
  match e with
  | [] => None
  | (k', v) :: e' => if String.eqb k k' then Some v else getenv k e'
  end.

(** The values a configuration module binds. The test configuration
    binds no [FASTAPI_CONFIG]. *)
Record Config : Type := {
  FASTAPI_CONFIG_port : option Z;
  MONGODB_URL : string;
  MONGODB_DB : string;
  MONGODB_COLLECTION : string;
  LOG_CONFIG_name : string;
  LOG_CONFIG_level : Z
}.

(** [logging.DEBUG] and [logging.INFO]. *)
Definition logging_DEBUG : Z := 10.
Definition logging_INFO : Z := 20.

(** Importing [config/config.py]: [os.environ["MONGODB_URL"]] raises
    when the variable is not set. *)
Definition config_load (e : environ) : exn + Config :=
  match getenv "MONGODB_URL" e with
  | None => inl (KeyError "MONGODB_URL")
  | Some url =>
      inr {| FASTAPI_CONFIG_port := Some 8081%Z;
             MONGODB_URL := url;
             MONGODB_DB := "college";
             MONGODB_COLLECTION := "students";
             LOG_CONFIG_name := "fast-api-webapp";
             LOG_CONFIG_level := logging_DEBUG |}
  end.

(** Importing [config/test_config.py]: [os.getenv] with a default. *)
Definition test_config_load (e : environ) : Config :=
  {| FASTAPI_CONFIG_port := None;
     MONGODB_URL := match getenv "MONGODB_URL" e with
                    | Some url => url
                    | None => "mongodb://user:aa@localhost:27017/"
                    end;
     MONGODB_DB := "college";
     MONGODB_COLLECTION := "students";
     LOG_CONFIG_name := "fast-api-webapp-test";
     LOG_CONFIG_level := logging_INFO |}.

Section Service.

(** The address validator behind [EmailStr]: the normalised address, or
    [None] for text outside the address grammar. *)
Variable EmailStr_validate : string -> option string.

(** [email: EmailStr = Field(...)]. *)
Definition validate_email (v : option string) : ErrorDetail + string :=
  match required "email" v with
  | inl e => inl e
  | inr s => match EmailStr_validate s with
             | Some s' => inr s'
             | None => inl {| loc := "email";
                              msg := "value is not a valid email address" |}
             end
  end.

(** Building a [StudentModel] from a payload: every field is checked, in
    declaration order, and all errors are reported together. *)
Definition StudentModel_validate (env : Env) (p : Payload)
  : list ErrorDetail + StudentModel :=
  let r_id := validate_id env (p_id p) in
  let r_name := required "name" (p_name p) in
  let r_email := validate_email (p_email p) in
  let r_course := required "course" (p_course p) in
  let r_gpa := validate_gpa (p_gpa p) in
  match r_id, r_name, r_email, r_course, r_gpa with
  | inr i, inr n, inr e, inr c, inr g =>
      inr {| id := i; name := n; email := e; course := c; gpa := g |}
  | _, _, _, _, _ =>
      inl (errors_of r_id ++ errors_of r_name ++ errors_of r_email
           ++ errors_of r_course ++ errors_of r_gpa)
  end.

(** The endpoint each route calls: the bound method of the server
    instance, after the framework has validated the request body
    (a body that fails validation is answered with 422 and the handler
    is not called); a returned dict is sent with status 200. *)
Definition endpoint (env : Env) (r : Request) : M Response :=
  match r with
  | GET_health => bound_call health_check_params 0 health_check
  | POST_api_student p =>
      match StudentModel_validate env p with
      | inl errs => ret {| status_code := HTTP_422_UNPROCESSABLE_ENTITY;
                           body := Detail errs |}
      | inr student =>
          bound_call create_student_params 1 (create_student env student)
      end
  | GET_hello => bound_call read_main_params 0 read_main
  | GET_joke =>
      d <- bound_call tell_joke_params 0 (tell_joke env) ;;
      JSONResponse HTTP_200_OK (Some d)
  end.

(** Serving one request. *)
Definition serve (env : Env) (r : Request) (w : World) : Outcome * World :=
  let '(res, w') := endpoint env r w in (outcome_of res, w').

(** Serving a sequence of requests, each with its own surroundings. *)
Fixpoint serve_all (rs : list (Env * Request)) (w : World) : World :=
  match rs with
  | [] => w
  | (env, r) :: rs' => serve_all rs' (snd (serve env r w))
  end.


(** The identifier a creation request carries into the model: the one
    the caller supplied, else the one the default factory made. *)
Definition request_id (env : Env) (p : Payload) : ObjectId :=
  match p_id p with
  | Some v => ObjectId.of_string v
  | None => new_PyObjectId env
  end.


(** The counters after one run of [create_student]. *)
Definition counted_create (m : registry) : registry :=
  let m1 := write STUDENT_CREATE_REQUESTS (read STUDENT_CREATE_REQUESTS m + 1)%N m in
  write REQUESTS (read REQUESTS m1 + 1)%N m1.

(** The same world with other counter values. *)
Definition with_metrics (m : registry) (w : World) : World :=
  {| metrics := m; students := students w; db_log := db_log w |}.

(** The counter each route's handler increments besides [REQUESTS]. *)
Definition own_counter (r : Request) : counter :=
  match r with
  | GET_health => HEALTHCHECK_REQUESTS
  | POST_api_student _ => STUDENT_CREATE_REQUESTS
  | GET_hello => MAIN_ENDPOINT_REQUESTS
  | GET_joke => JOKE_ENDPOINT_REQUESTS
  end.

(** The error entries reported for an absent field and for a bad
    identifier. *)
Definition field_required (field : string) : ErrorDetail :=
  {| loc := field; msg := "field required" |}.

Definition invalid_objectid : ErrorDetail :=
  {| loc := "_id"; msg := "Invalid objectid" |}.

(** Does validation of [p] report an error on field [field]? *)
Definition reports_field (errs : list ErrorDetail) (field : string) : bool :=
  existsb (fun e => String.eqb (loc e) field) errs.

(** Is the handler of the route entered? Not on a body that fails
    validation, and never for the joke route. *)
Definition enters_handler (env : Env) (r : Request) : bool :=
  match r with
  | GET_health | GET_hello => true
  | POST_api_student p =>
      match StudentModel_validate env p with inr _ => true | inl _ => false end
  | GET_joke => false
  end.

(** The errors validation reports for a payload, none when it passes. *)
Definition validation_errors (env : Env) (p : Payload) : list ErrorDetail :=
  match StudentModel_validate env p with
  | inl errs => errs
  | inr _ => []
  end.

(** ** Sample data *)

(** A stand-in for the address validator: text with an [@] is returned
    as it is. *)
Definition sample_EmailStr_validate (s : string) : option string :=
  match index 0 "@" s with
  | Some _ => Some s
  | None => None
  end.

Definition sample_joke : Reply :=
  {| reply_status := 200;
     reply_json := [ ("type", VStr "general");
                     ("setup", VStr "Why did the chicken cross the road?");
                     ("punchline", VStr "To get to the other side.") ] |}.

Definition sample_env : Env :=
  {| new_PyObjectId := 0x64b7f3a2c1d4e5f6a7b8c9d0%N;
     driver_ObjectId := 0x64b7f3a2c1d4e5f6a7b8c9d1%N;
     requests_get := fun _ => sample_joke |}.

(** The world at process start: counters at zero, an empty collection. *)
Definition world0 : World :=
  {| metrics := registry0; students := []; db_log := [] |}.

(** The payload of the repository's own creation test. *)
Definition jane_doe : Payload :=
  {| p_id := Some "62422b3329661ce0eab2066f";
     p_name := Some "Jane Doe";
     p_email := Some "jdoe@example.com";
     p_course := Some "Experiments, Science, and Fashion in Nanophotonics";
     p_gpa := Some (3 # 1)%Q |}.

(** The same student, posted without an identifier. *)
Definition jane_doe_no_id : Payload :=
  {| p_id := None;
     p_name := p_name jane_doe;
     p_email := p_email jane_doe;
     p_course := p_course jane_doe;
     p_gpa := p_gpa jane_doe |}.

(** A payload with empty name and course, otherwise the test's. *)
Definition nameless : Payload :=
  {| p_id := None;
     p_name := Some "";
     p_email := Some "jdoe@example.com";
     p_course := Some "";
     p_gpa := Some (3 # 1)%Q |}.


(** Building an [UpdateStudentModel] from a payload: no key is required,
    a key the model does not declare ([_id]) is ignored, and only the
    address is checked. *)
Definition UpdateStudentModel_validate (p : Payload)
  : list ErrorDetail + UpdateStudentModel.t :=
  match p_email p with
  | None =>
      inr {| UpdateStudentModel.name := p_name p;
             UpdateStudentModel.email := None;
             UpdateStudentModel.course := p_course p;
             UpdateStudentModel.gpa := p_gpa p |}
  | Some s =>
      match EmailStr_validate s with
      | Some s' =>
          inr {| UpdateStudentModel.name := p_name p;
                 UpdateStudentModel.email := Some s';
                 UpdateStudentModel.course := p_course p;
                 UpdateStudentModel.gpa := p_gpa p |}
      | None => inl [ {| loc := "email";
                         msg := "value is not a valid email address" |} ]
      end
  end.

(** Every stored document has an [_id] and no two share one. *)
Fixpoint unique_ids (c : collection) : bool :=
  match c with
  | [] => true
  | d :: c' =>
      match lookup "_id" d with
      | Some v => negb (holds_id v c')
      | None => false
      end && unique_ids c'
  end.

(** The total counter equals the sum of the four endpoint counters. *)
Definition counters_add_up (m : registry) : Prop :=
  read REQUESTS m
  = (read HEALTHCHECK_REQUESTS m + read MAIN_ENDPOINT_REQUESTS m
     + read STUDENT_CREATE_REQUESTS m + read JOKE_ENDPOINT_REQUESTS m)%N.

(** How many requests of [rs] count for counter [c]: those whose handler
    is entered, all of them for the total and the route's own for an
    endpoint counter. *)
Definition counted (c : counter) (rs : list (Env * Request)) : nat :=
  List.length
    (filter (fun er => enters_handler (fst er) (snd er)
                       && (counter_eqb c REQUESTS
                           || counter_eqb c (own_counter (snd er)))) rs).

(** A few requests in a row: a health check, a creation, the same
    creation again, a joke, a greeting and a creation that fails
    validation. *)
Definition sample_session : list (Env * Request) :=
  [ (sample_env, GET_health);
    (sample_env, POST_api_student jane_doe);
    (sample_env, POST_api_student jane_doe);
    (sample_env, GET_joke);
    (sample_env, GET_hello);
    (sample_env, POST_api_student
                   {| p_id := None; p_name := None; p_email := None;
                      p_course := None; p_gpa := None |}) ].






(** Surroundings of a later request: the factory and the store have
    moved on to other identifiers. *)
Definition later_env : Env :=
  {| new_PyObjectId := 0x64b7f3a2c1d4e5f6a7b8c9d2%N;
     driver_ObjectId := 0x64b7f3a2c1d4e5f6a7b8c9d3%N;
     requests_get := fun _ => sample_joke |}.

(** A process environment that sets the connection string. *)
Definition sample_environ : environ :=
  [ ("HOME", "/root"); ("MONGODB_URL", "mongodb://db:27017/") ].

(** * Properties *)

(** ** Object identifiers *)

Lemma hex_char_lower (d : N) :
  (d < 16)%N -> ObjectId.is_lower_hex (ObjectId.hex_char d) = true.
Proof.
  intros H.
  assert (E : In d (map N.of_nat (seq 0 16))).
  { apply in_map_iff. exists (N.to_nat d). split; [apply N2Nat.id|].
    apply in_seq. lia. }
  simpl in E.
  repeat (destruct E as [<- | E]; [reflexivity|]).
  destruct E.
Qed.

Lemma hex_digits_length (k : nat) : forall n,
  List.length (ObjectId.hex_digits k n) = k.
Proof.
  induction k as [|k IH]; intros n; simpl; [reflexivity|].
  rewrite length_app, IH. simpl. lia.
Qed.

Lemma hex_digits_lower (k : nat) : forall n,
  forallb ObjectId.is_lower_hex (ObjectId.hex_digits k n) = true.
Proof.
  induction k as [|k IH]; intros n; simpl; [reflexivity|].
  rewrite forallb_app, IH. simpl.
  rewrite hex_char_lower; [reflexivity|].
  apply N.mod_lt. discriminate.
Qed.

Lemma string_of_list_ascii_length (l : list ascii) :
  String.length (string_of_list_ascii l) = List.length l.
Proof.
  induction l as [|c l IH]; simpl; [reflexivity|]. now rewrite IH.
Qed.

(** What [str] prints is always in canonical form. *)
Lemma ObjectId_str_canonical (o : ObjectId) :
  ObjectId.is_canonical (ObjectId.str o) = true.
Proof.
  unfold ObjectId.is_canonical, ObjectId.str.
  rewrite string_of_list_ascii_length, hex_digits_length.
  rewrite list_ascii_of_string_of_list_ascii, hex_digits_lower.
  reflexivity.
Qed.


Lemma of_digits_snoc (cs : list ascii) (c : ascii) :
  ObjectId.of_digits (cs ++ [c])
  = (16 * ObjectId.of_digits cs + ObjectId.digit c)%N.
Proof.
  unfold ObjectId.of_digits. now rewrite fold_left_app.
Qed.

Lemma hex_digits_S (k : nat) (n : N) :
  ObjectId.hex_digits (S k) n
  = ObjectId.hex_digits k (n / 16)%N ++ [ObjectId.hex_char (n mod 16)%N].
Proof. reflexivity. Qed.



(** ** Reading back what [str] printed *)

Lemma hex_char_digit (d : N) :
  (d < 16)%N -> ObjectId.digit (ObjectId.hex_char d) = d.
Proof.
  intros H.
  assert (E : In d (map N.of_nat (seq 0 16))).
  { apply in_map_iff. exists (N.to_nat d). split; [apply N2Nat.id|].
    apply in_seq. lia. }
  simpl in E.
  repeat (destruct E as [<- | E]; [reflexivity|]).
  destruct E.
Qed.

Lemma lower_hex_is_hex (c : ascii) :
  ObjectId.is_lower_hex c = true -> ObjectId.is_hex c = true.
Proof.
  destruct c as [[] [] [] [] [] [] [] []]; intros H;
    solve [ discriminate H | reflexivity ].
Qed.

Lemma is_hex_digit_bound (c : ascii) :
  ObjectId.is_hex c = true -> (ObjectId.digit c < 16)%N.
Proof.
  destruct c as [[] [] [] [] [] [] [] []]; intros H;
    solve [ discriminate H | vm_compute; reflexivity ].
Qed.

(** Reading [k] printed digits gives the number back, up to [16^k]. *)
Lemma of_digits_hex_digits (k : nat) : forall n,
  ObjectId.of_digits (ObjectId.hex_digits k n) = (n mod 16 ^ N.of_nat k)%N.
Proof.
  induction k as [|k IH]; intros n.
  - simpl. now rewrite N.mod_1_r.
  - rewrite hex_digits_S, of_digits_snoc, IH.
    rewrite hex_char_digit by (apply N.mod_lt; discriminate).
    rewrite Nat2N.inj_succ, N.pow_succ_r'.
    rewrite N.Div0.mod_mul_r. lia.
Qed.

(** Digits read into a number stay below [16^length]. *)
Lemma of_digits_bound (cs : list ascii) :
  forallb ObjectId.is_hex cs = true ->
  (ObjectId.of_digits cs < 16 ^ N.of_nat (List.length cs))%N.
Proof.
  induction cs as [|c cs IH] using rev_ind; intros H.
  - reflexivity.
  - rewrite forallb_app in H. apply andb_prop in H as [Hcs Hc].
    simpl in Hc. rewrite andb_true_r in Hc.
    apply is_hex_digit_bound in Hc. specialize (IH Hcs).
    rewrite of_digits_snoc, length_app. simpl List.length.
    rewrite Nat.add_1_r, Nat2N.inj_succ, N.pow_succ_r'. lia.
Qed.

Lemma width_digits : (16 ^ N.of_nat ObjectId.width = 2 ^ 96)%N.
Proof. vm_compute. reflexivity. Qed.

(** What [str] prints is a valid token. *)
Lemma ObjectId_str_valid (o : ObjectId) :
  ObjectId.is_valid (ObjectId.str o) = true.
Proof.
  pose proof (ObjectId_str_canonical o) as H.
  unfold ObjectId.is_canonical in H. unfold ObjectId.is_valid.
  apply andb_prop in H as [Hl Hd]. rewrite Hl, andb_true_l.
  apply forallb_forall. intros c Hc.
  apply lower_hex_is_hex.
  now apply (proj1 (forallb_forall _ _) Hd).
Qed.

(** Reading what [str] printed gives the identifier back, as a 12-byte
    value. *)
Lemma ObjectId_of_string_str (o : ObjectId) :
  ObjectId.of_string (ObjectId.str o) = (o mod 2 ^ 96)%N.
Proof.
  unfold ObjectId.of_string, ObjectId.str.
  rewrite list_ascii_of_string_of_list_ascii, of_digits_hex_digits.
  now rewrite width_digits.
Qed.

(** A valid token denotes a 12-byte value. *)
Lemma ObjectId_of_string_bound (s : string) :
  ObjectId.is_valid s = true -> (ObjectId.of_string s < 2 ^ 96)%N.
Proof.
  unfold ObjectId.is_valid, ObjectId.of_string. intros H.
  apply andb_prop in H as [Hl Hd]. apply Nat.eqb_eq in Hl.
  pose proof (of_digits_bound _ Hd) as B.
  assert (L : List.length (list_ascii_of_string s) = ObjectId.width).
  { rewrite <- string_of_list_ascii_length.
    now rewrite string_of_list_ascii_of_string. }
  rewrite L, width_digits in B. exact B.
Qed.

(** From here on identifiers are used through these lemmas only. *)
Opaque ObjectId.str ObjectId.of_string ObjectId.is_valid.

(** ** The store *)

Lemma value_eqb_refl_str (s : string) : value_eqb (VStr s) (VStr s) = true.
Proof. simpl. apply String.eqb_refl. Qed.

Lemma find_one_appended (flt d : document) (c : collection) :
  existsb (matches flt) c = false ->
  matches flt d = true ->
  find_one flt (c ++ [d]) = Some d.
Proof.
  unfold find_one. induction c as [|x c IH]; simpl; intros Hc Hd.
  - now rewrite Hd.
  - apply orb_false_elim in Hc as [Hx Hc]. rewrite Hx. now apply IH.
Qed.

(** A document that brings its own [_id] is filed under it, whatever
    identifier the store had ready. *)
Lemma insert_one_own_id (gen gen' : ObjectId) (d : document) (c : collection) (v : value) :
  lookup "_id" d = Some v ->
  insert_one gen d c = insert_one gen' d c.
Proof. unfold insert_one. intros ->. reflexivity. Qed.

(** ** Running [create_student] *)

Lemma create_student_accepted (env : Env) (s : StudentModel) (w : World) :
  holds_id (VStr (ObjectId.str (id s))) (students w) = false ->
  create_student env s w =
    (Ok {| status_code := HTTP_201_CREATED; body := Object (jsonable_encoder s) |},
     {| metrics := counted_create (metrics w);
        students := students w ++ [jsonable_encoder s];
        db_log := (db_log w ++ [CallInsertOne (jsonable_encoder s)])
                  ++ [CallFindOne [("_id", VStr (ObjectId.str (id s)))]] |}).
Proof.
  intros H.
  unfold create_student, bind, inc, db_insert_one, db_find_one, insert_one.
  simpl. rewrite H. simpl.
  rewrite find_one_appended.
  - reflexivity.
  - exact H.
  - simpl. now rewrite String.eqb_refl.
Qed.

Lemma create_student_refused (env : Env) (s : StudentModel) (w : World) :
  holds_id (VStr (ObjectId.str (id s))) (students w) = true ->
  create_student env s w =
    (Raise (DuplicateKeyError (VStr (ObjectId.str (id s)))),
     {| metrics := counted_create (metrics w);
        students := students w;
        db_log := db_log w ++ [CallInsertOne (jsonable_encoder s)] |}).
Proof.
  intros H.
  unfold create_student, bind, inc, db_insert_one, db_find_one, insert_one.
  simpl. rewrite H. reflexivity.
Qed.

(** ** Validation *)

Lemma validate_gpa_bounded (g : Q) :
  (g <= 4 # 1)%Q -> validate_gpa (Some g) = inr g.
Proof.
  intros H. unfold validate_gpa. simpl.
  now rewrite (proj2 (Qle_bool_iff g (4 # 1)) H).
Qed.


Lemma validate_id_request (env : Env) (p : Payload) :
  match p_id p with
  | Some v => ObjectId.is_valid v = true
  | None => True
  end ->
  validate_id env (p_id p) = inr (request_id env p).
Proof.
  unfold validate_id, request_id, PyObjectId_validate.
  destruct (p_id p) as [v|]; [|reflexivity].
  now intros ->.
Qed.

(** A payload whose fields all pass becomes the model holding them. *)
Lemma StudentModel_validate_accepts (env : Env) (p : Payload) (n e e' c : string) (g : Q) :
  match p_id p with
  | Some v => ObjectId.is_valid v = true
  | None => True
  end ->
  p_name p = Some n ->
  p_email p = Some e ->
  EmailStr_validate e = Some e' ->
  p_course p = Some c ->
  p_gpa p = Some g ->
  (g <= 4 # 1)%Q ->
  StudentModel_validate env p =
    inr {| id := request_id env p; name := n; email := e'; course := c; gpa := g |}.
Proof.
  intros Hid Hn He Hv Hc Hg Hle. unfold StudentModel_validate.
  rewrite (validate_id_request env p Hid), Hn, He, Hc, Hg.
  rewrite (validate_gpa_bounded g Hle).
  unfold validate_email. simpl. now rewrite Hv.
Qed.

(** Whatever else the payload holds, an error on one field makes
    validation fail and report that error. *)
Lemma StudentModel_validate_reports (env : Env) (p : Payload) (err : ErrorDetail) :
  In err (errors_of (validate_id env (p_id p))
          ++ errors_of (required "name" (p_name p))
          ++ errors_of (validate_email (p_email p))
          ++ errors_of (required "course" (p_course p))
          ++ errors_of (validate_gpa (p_gpa p))) ->
  exists errs, StudentModel_validate env p = inl errs /\ In err errs.
Proof.
  unfold StudentModel_validate.
  destruct (validate_id env (p_id p)), (required "name" (p_name p)),
    (validate_email (p_email p)), (required "course" (p_course p)),
    (validate_gpa (p_gpa p)); intros H;
    solve [ eexists; split; [reflexivity | exact H] | destruct H ].
Qed.

(** A rejected body is answered with 422 and nothing else happens. *)
Lemma serve_rejected (env : Env) (p : Payload) (w : World) (errs : list ErrorDetail) :
  StudentModel_validate env p = inl errs ->
  serve env (POST_api_student p) w =
    (Responded {| status_code := HTTP_422_UNPROCESSABLE_ENTITY; body := Detail errs |}, w).
Proof. intros H. unfold serve, endpoint. now rewrite H. Qed.

(** A validated body reaches [create_student]. *)
Lemma serve_validated (env : Env) (p : Payload) (w : World) (s : StudentModel) :
  StudentModel_validate env p = inr s ->
  serve env (POST_api_student p) w =
    (outcome_of (fst (create_student env s w)), snd (create_student env s w)).
Proof.
  intros H. unfold serve, endpoint. rewrite H.
  unfold bound_call. simpl. now destruct (create_student env s w).
Qed.

(** ** Creating a student *)




(** ** The joke endpoint *)

(** The body of [tell_joke] counts the request and then stops at the
    name [requests], which the module never binds. *)
Lemma tell_joke_body (env : Env) (w : World) :
  tell_joke env w
  = (Raise (NameError "requests"),
     with_metrics
       (write JOKE_ENDPOINT_REQUESTS
          (read JOKE_ENDPOINT_REQUESTS
             (write REQUESTS (read REQUESTS (metrics w) + 1)%N (metrics w)) + 1)%N
          (write REQUESTS (read REQUESTS (metrics w) + 1)%N (metrics w)))
       w).
Proof. reflexivity. Qed.

(** C4. The joke endpoint never answers: whatever the joke provider
    would reply (200 or not), the request ends in a fault and no
    response. The route calls [tell_joke] through the server instance
    although it declares no parameter, and its body, were it entered,
    stops at the unbound name [requests] before any call upstream. *)
Theorem joke_endpoint_faults (env : Env) (w : World) :
  fst (serve env GET_joke w)
    = Fault (TypeError "wrong number of positional arguments")
  /\ fst (tell_joke env w) = Raise (NameError "requests").
Proof. split; reflexivity. Qed.

(** ** Counters *)

Lemma read_write (c c' : counter) (v : N) (m : registry) :
  read c' (write c v m) = if counter_eqb c c' then v else read c' m.
Proof. destruct c, c'; reflexivity. Qed.

Lemma create_student_metrics (env : Env) (s : StudentModel) (w : World) :
  metrics (snd (create_student env s w)) = counted_create (metrics w).
Proof.
  destruct (holds_id (VStr (ObjectId.str (id s))) (students w)) eqn:H.
  - now rewrite create_student_refused.
  - now rewrite create_student_accepted.
Qed.

(** What one request does to counter [c]: one more when the handler is
    entered and [c] is the total or the route's own counter, no change
    otherwise. *)
Lemma serve_counts (env : Env) (r : Request) (w : World) (c : counter) :
  read c (metrics (snd (serve env r w)))
  = (read c (metrics w)
     + if enters_handler env r
          && (counter_eqb c REQUESTS || counter_eqb c (own_counter r))
       then 1 else 0)%N.
Proof.
  destruct r as [|p| |]; simpl enters_handler.
  - destruct c; simpl; lia.
  - destruct (StudentModel_validate env p) as [errs|s] eqn:V.
    + rewrite (serve_rejected env p w errs V). simpl. lia.
    + rewrite (serve_validated env p w s V). cbn [snd].
      rewrite create_student_metrics. unfold counted_create.
      destruct c; simpl; lia.
  - destruct c; simpl; lia.
  - destruct c; simpl; lia.
Qed.

(** No request lowers a counter. *)
Lemma serve_monotone (env : Env) (r : Request) (w : World) (c : counter) :
  (read c (metrics w) <= read c (metrics (snd (serve env r w))))%N.
Proof. rewrite serve_counts. lia. Qed.

(** Counters never decrease along any sequence of requests. *)
Lemma serve_all_monotone (rs : list (Env * Request)) : forall (w : World) (c : counter),
  (read c (metrics w) <= read c (metrics (serve_all rs w)))%N.
Proof.
  induction rs as [|[env r] rs IH]; intros w c; simpl; [lia|].
  eapply N.le_trans; [apply (serve_monotone env r w c) | apply IH].
Qed.

(** C7. A request on the joke route moves no counter: neither the total
    nor the joke counter is incremented, because the handler that holds
    the two increments is never entered. *)
Theorem joke_request_counts_nothing (env : Env) (w : World) :
  metrics (snd (serve env GET_joke w)) = metrics w
  /\ read REQUESTS (metrics (snd (serve env GET_joke w))) = read REQUESTS (metrics w)
  /\ read JOKE_ENDPOINT_REQUESTS (metrics (snd (serve env GET_joke w)))
     = read JOKE_ENDPOINT_REQUESTS (metrics w).
Proof. repeat split; reflexivity. Qed.

(** C8. The response and the resulting store contents of every request
    are the same whatever the counters hold: replacing the counter
    values of the world changes neither. *)
Theorem responses_ignore_counters (env : Env) (r : Request) (w : World) (m : registry) :
  fst (serve env r (with_metrics m w)) = fst (serve env r w)
  /\ students (snd (serve env r (with_metrics m w))) = students (snd (serve env r w)).
Proof.
  destruct r as [|p| |]; try (split; reflexivity).
  destruct (StudentModel_validate env p) as [errs|s] eqn:V.
  - rewrite !(serve_rejected env p _ errs V). split; reflexivity.
  - rewrite !(serve_validated env p _ s V).
    destruct (holds_id (VStr (ObjectId.str (id s))) (students w)) eqn:H.
    + rewrite (create_student_refused env s w H).
      rewrite (create_student_refused env s (with_metrics m w) H).
      split; reflexivity.
    + rewrite (create_student_accepted env s w H).
      rewrite (create_student_accepted env s (with_metrics m w) H).
      split; reflexivity.
Qed.

(** ** Identifiers, required fields and the stored document *)




(** C5 (as the code has it). With the other fields valid: when the
    payload omits the identifier, the stored document is filed under the
    identifier the model's default factory made during validation, in
    string form; the store is handed a document that already has its
    [_id] and the identifier the store had ready is not consulted. When
    the caller supplies an identifier it is used if it is a valid token,
    and otherwise the payload is rejected with an error on [_id]. *)
Theorem identifier_comes_from_model
  (env : Env) (p : Payload) (w : World) (n e e' c : string) (g : Q) :
  p_name p = Some n ->
  p_email p = Some e ->
  EmailStr_validate e = Some e' ->
  p_course p = Some c ->
  p_gpa p = Some g ->
  (g <= 4 # 1)%Q ->
  let stored (o : ObjectId) :=
    let d := jsonable_encoder
               {| id := o; name := n; email := e'; course := c; gpa := g |} in
    lookup "_id" d = Some (VStr (ObjectId.str o))
    /\ (forall gen, insert_one gen d (students w)
                    = insert_one (driver_ObjectId env) d (students w))
    /\ (holds_id (VStr (ObjectId.str o)) (students w) = false ->
        students (snd (serve env (POST_api_student p) w)) = students w ++ [d]) in
  match p_id p with
  | None => stored (new_PyObjectId env)
  | Some v =>
      if ObjectId.is_valid v then stored (ObjectId.of_string v)
      else exists errs,
             serve env (POST_api_student p) w
               = (Responded {| status_code := 422; body := Detail errs |}, w)
             /\ In invalid_objectid errs
  end.
Proof.
  intros Hn He Hv Hc Hg Hle stored.
  assert (S : match p_id p with
              | Some v => ObjectId.is_valid v = true
              | None => True
              end -> stored (request_id env p)).
  { intros Hid.
    pose proof (StudentModel_validate_accepts env p n e e' c g Hid Hn He Hv Hc Hg Hle) as V.
    unfold stored. split; [reflexivity|]. split.
    - intros gen. now apply insert_one_own_id with (v := VStr (ObjectId.str (request_id env p))).
    - intros Hnew. rewrite (serve_validated env p w _ V).
      now rewrite create_student_accepted. }
  unfold request_id in S.
  destruct (p_id p) as [v|] eqn:Ep; [|now apply S].
  destruct (ObjectId.is_valid v) eqn:Ev; [now apply S|].
  destruct (StudentModel_validate_reports env p invalid_objectid) as [errs [V I]].
  - rewrite Ep. unfold validate_id, PyObjectId_validate. rewrite Ev. now left.
  - exists errs. split; [now apply serve_rejected | exact I].
Qed.

(** C6 (as the code has it). Name and course are required, not
    non-empty: when either is absent the payload is rejected with 422
    and an error naming each absent field, the world unchanged; when
    both are present, whatever text they hold (the empty string
    included), validation reports no error on name or on course. *)
Theorem name_and_course_required (env : Env) (p : Payload) (w : World) :
  match p_name p, p_course p with
  | Some _, Some _ =>
      reports_field (validation_errors env p) "name" = false
      /\ reports_field (validation_errors env p) "course" = false
  | _, _ =>
      exists errs,
        serve env (POST_api_student p) w
          = (Responded {| status_code := 422; body := Detail errs |}, w)
        /\ (p_name p = None -> In (field_required "name") errs)
        /\ (p_course p = None -> In (field_required "course") errs)
  end.
Proof.
  assert (R : p_name p = None \/ p_course p = None ->
              exists errs,
                serve env (POST_api_student p) w
                  = (Responded {| status_code := 422; body := Detail errs |}, w)
                /\ (p_name p = None -> In (field_required "name") errs)
                /\ (p_course p = None -> In (field_required "course") errs)).
  { intros H. unfold StudentModel_validate.
    assert (exists errs, StudentModel_validate env p = inl errs
              /\ errs = errors_of (validate_id env (p_id p))
                        ++ errors_of (required "name" (p_name p))
                        ++ errors_of (validate_email (p_email p))
                        ++ errors_of (required "course" (p_course p))
                        ++ errors_of (validate_gpa (p_gpa p))) as [errs [V E]].
    { unfold StudentModel_validate.
      destruct (validate_id env (p_id p)), (validate_email (p_email p)),
        (validate_gpa (p_gpa p)), H as [-> | ->];
        destruct (p_name p), (p_course p); simpl; eexists; split; reflexivity. }
    exists errs. split; [now apply serve_rejected|]. subst errs. split.
    - intros ->. apply in_or_app. right. now left.
    - intros ->. do 3 (apply in_or_app; right). apply in_or_app. left. now left. }
  destruct (p_name p) as [n|] eqn:En; [|apply R; now left].
  destruct (p_course p) as [c|] eqn:Ec; [|apply R; now right].
  unfold validation_errors, StudentModel_validate. rewrite En, Ec.
  unfold validate_id, PyObjectId_validate, validate_email, validate_gpa.
  destruct (p_id p) as [v|], (p_email p) as [a|], (p_gpa p) as [q|]; simpl;
    repeat match goal with
           | |- context [ObjectId.is_valid ?x] => destruct (ObjectId.is_valid x); simpl
           | |- context [EmailStr_validate ?x] => destruct (EmailStr_validate x); simpl
           | |- context [Qle_bool ?x ?y] => destruct (Qle_bool x y); simpl
           end;
    split; reflexivity.
Qed.



(** * Further properties of the handlers *)

(** ** The health check and the greeting *)

(** X1. The health check and the greeting answer 200 with their fixed
    body in every world, whatever the store holds; they make no call on
    the store and leave its contents as they were. *)
Theorem health_and_greeting_fixed (env : Env) (w : World) :
  (fst (serve env GET_health w)
     = Responded {| status_code := 200; body := Object [("health", VStr "ok")] |}
   /\ students (snd (serve env GET_health w)) = students w
   /\ db_log (snd (serve env GET_health w)) = db_log w)
  /\ (fst (serve env GET_hello w)
        = Responded {| status_code := 200; body := Object [("msg", VStr "Hello World")] |}
      /\ students (snd (serve env GET_hello w)) = students w
      /\ db_log (snd (serve env GET_hello w)) = db_log w).
Proof. repeat split. Qed.

(** ** Identifiers already taken *)

Lemma value_eqb_sym (a b : value) : value_eqb a b = value_eqb b a.
Proof.
  destruct a, b; simpl; try reflexivity.
  - apply String.eqb_sym.
  - unfold Qeq_bool. rewrite Z.eqb_sym. reflexivity.
  - apply N.eqb_sym.
Qed.

Lemma matches_id (v : value) (d : document) :
  matches [("_id", v)] d
  = match lookup "_id" d with Some x => value_eqb x v | None => false end.
Proof.
  unfold matches. simpl. destruct (lookup "_id" d); [apply andb_true_r | reflexivity].
Qed.

Lemma holds_id_app (v : value) (c : collection) (d : document) :
  holds_id v (c ++ [d]) = holds_id v c || matches [("_id", v)] d.
Proof.
  unfold holds_id. rewrite existsb_app. simpl. now rewrite orb_false_r.
Qed.

Lemma encoder_matches_own_id (m : StudentModel) :
  matches [("_id", VStr (ObjectId.str (id m)))] (jsonable_encoder m) = true.
Proof. rewrite matches_id. simpl. apply String.eqb_refl. Qed.

(** X2. A validated creation request whose identifier is already taken
    in the store ends in a duplicate-key fault: the store contents do
    not change, the store received the insert and no lookup, and the
    request was counted all the same (creation counter and total each
    one more). *)
Theorem taken_identifier_faults (env : Env) (p : Payload) (w : World) (m : StudentModel) :
  StudentModel_validate env p = inr m ->
  holds_id (VStr (ObjectId.str (id m))) (students w) = true ->
  let w' := snd (serve env (POST_api_student p) w) in
  fst (serve env (POST_api_student p) w)
    = Fault (DuplicateKeyError (VStr (ObjectId.str (id m))))
  /\ students w' = students w
  /\ db_log w' = db_log w ++ [CallInsertOne (jsonable_encoder m)]
  /\ read STUDENT_CREATE_REQUESTS (metrics w')
     = (read STUDENT_CREATE_REQUESTS (metrics w) + 1)%N
  /\ read REQUESTS (metrics w') = (read REQUESTS (metrics w) + 1)%N.
Proof.
  intros V H w'. unfold w'.
  rewrite (serve_validated env p w m V), (create_student_refused env m w H).
  repeat split.
Qed.

(** X3. Posting the same student with the same supplied identifier
    twice: once the first request is stored, the second (whatever its
    surroundings) ends in a duplicate-key fault and the store keeps the
    single document of the first. *)
Theorem second_post_is_refused
  (env env' : Env) (p : Payload) (w : World) (v n e e' c : string) (g : Q) :
  p_id p = Some v ->
  ObjectId.is_valid v = true ->
  p_name p = Some n ->
  p_email p = Some e ->
  EmailStr_validate e = Some e' ->
  p_course p = Some c ->
  p_gpa p = Some g ->
  (g <= 4 # 1)%Q ->
  holds_id (VStr (ObjectId.str (ObjectId.of_string v))) (students w) = false ->
  let w1 := snd (serve env (POST_api_student p) w) in
  let d := jsonable_encoder {| id := ObjectId.of_string v; name := n;
                               email := e'; course := c; gpa := g |} in
  students w1 = students w ++ [d]
  /\ fst (serve env' (POST_api_student p) w1)
     = Fault (DuplicateKeyError (VStr (ObjectId.str (ObjectId.of_string v))))
  /\ students (snd (serve env' (POST_api_student p) w1)) = students w ++ [d].
Proof.
  intros Hp Hv Hn He Hm Hc Hg Hle Hnew w1 d.
  assert (Hid : match p_id p with
                | Some v => ObjectId.is_valid v = true
                | None => True
                end) by now rewrite Hp.
  assert (R : forall x, request_id x p = ObjectId.of_string v).
  { intros x. unfold request_id. now rewrite Hp. }
  pose proof (StudentModel_validate_accepts env p n e e' c g Hid Hn He Hm Hc Hg Hle) as V.
  pose proof (StudentModel_validate_accepts env' p n e e' c g Hid Hn He Hm Hc Hg Hle) as V'.
  rewrite R in V, V'.
  assert (E1 : students w1 = students w ++ [d]).
  { unfold w1. rewrite (serve_validated env p w _ V).
    now rewrite create_student_accepted. }
  assert (T : holds_id (VStr (ObjectId.str (ObjectId.of_string v))) (students w1) = true).
  { rewrite E1, holds_id_app. apply orb_true_iff. right.
    exact (encoder_matches_own_id
             {| id := ObjectId.of_string v; name := n; email := e';
                course := c; gpa := g |}). }
  split; [exact E1|].
  rewrite (serve_validated env' p w1 _ V').
  rewrite create_student_refused by exact T.
  split; [reflexivity | exact E1].
Qed.

(** ** What a sequence of requests does to the store *)

(** One request leaves the collection as it was or appends the encoded
    form of a validated model whose identifier was free. *)
Lemma serve_students (env : Env) (r : Request) (w : World) :
  students (snd (serve env r w)) = students w
  \/ exists m, holds_id (VStr (ObjectId.str (id m))) (students w) = false
               /\ students (snd (serve env r w)) = students w ++ [jsonable_encoder m].
Proof.
  destruct r as [|p| |]; try (left; reflexivity).
  destruct (StudentModel_validate env p) as [errs|m] eqn:V.
  - rewrite (serve_rejected env p w errs V). now left.
  - rewrite (serve_validated env p w m V).
    destruct (holds_id (VStr (ObjectId.str (id m))) (students w)) eqn:H.
    + rewrite (create_student_refused env m w H). now left.
    + rewrite (create_student_accepted env m w H). right. now exists m.
Qed.

(** X4. The service only ever appends to the collection: after any
    sequence of requests the documents that were there are still
    there, unchanged and in place, followed by at most one new
    document per request, each the encoded form of a student model. *)
Theorem store_only_grows (rs : list (Env * Request)) : forall w : World,
  exists added : collection,
    students (serve_all rs w) = students w ++ added
    /\ List.length added <= List.length rs
    /\ Forall (fun d => exists m, d = jsonable_encoder m) added.
Proof.
  induction rs as [|[env r] rs IH]; intros w.
  - exists []. simpl. rewrite app_nil_r.
    split; [reflexivity | split; [lia | constructor]].
  - simpl serve_all.
    destruct (IH (snd (serve env r w))) as [added [E [L F]]].
    destruct (serve_students env r w) as [S | [m [_ S]]]; rewrite S in E.
    + exists added. simpl.
      split; [exact E | split; [lia | exact F]].
    + exists (jsonable_encoder m :: added). simpl.
      rewrite <- app_assoc in E.
      split; [exact E | split; [lia |]].
      constructor; [now exists m | exact F].
Qed.

Lemma holds_id_cons (v : value) (x : document) (c : collection) :
  holds_id v (x :: c) = matches [("_id", v)] x || holds_id v c.
Proof. reflexivity. Qed.

Lemma unique_ids_cons (x : document) (c : collection) :
  unique_ids (x :: c)
  = match lookup "_id" x with
    | Some v => negb (holds_id v c)
    | None => false
    end && unique_ids c.
Proof. reflexivity. Qed.

Lemma unique_ids_app (c : collection) (d : document) (v : value) :
  unique_ids c = true ->
  lookup "_id" d = Some v ->
  holds_id v c = false ->
  unique_ids (c ++ [d]) = true.
Proof.
  intros U L. induction c as [|x c IH]; intros H.
  - simpl. now rewrite L.
  - rewrite unique_ids_cons in U. apply andb_prop in U as [Ux Uc].
    rewrite holds_id_cons in H. apply orb_false_elim in H as [Hx Hc].
    rewrite <- app_comm_cons, unique_ids_cons.
    rewrite (IH Uc Hc), andb_true_r.
    destruct (lookup "_id" x) as [vx|] eqn:Lx; [|discriminate Ux].
    rewrite holds_id_app, matches_id, L.
    rewrite matches_id, Lx in Hx.
    rewrite value_eqb_sym, Hx, orb_false_r. exact Ux.
Qed.

(** X5. The service never files two documents under one identifier: if
    every stored document has an [_id] of its own, this is still so
    after any sequence of requests. *)
Theorem unique_ids_kept (rs : list (Env * Request)) : forall w : World,
  unique_ids (students w) = true ->
  unique_ids (students (serve_all rs w)) = true.
Proof.
  induction rs as [|[env r] rs IH]; intros w U; [exact U|].
  simpl serve_all. apply IH.
  destruct (serve_students env r w) as [S | [m [H S]]]; rewrite S; [exact U|].
  now apply unique_ids_app with (v := VStr (ObjectId.str (id m))).
Qed.

(** ** Counters along a sequence of requests *)

(** X6. Along any sequence of requests each counter grows by exactly
    the number of requests that count for it: for the total, the
    requests whose handler was entered; for an endpoint counter, those
    among them on its own route. A creation that fails validation and a
    joke request count for nothing. *)
Theorem counters_count_handled (rs : list (Env * Request)) : forall (w : World) (c : counter),
  read c (metrics (serve_all rs w))
  = (read c (metrics w) + N.of_nat (counted c rs))%N.
Proof.
  induction rs as [|[env r] rs IH]; intros w c.
  - simpl. lia.
  - simpl serve_all. rewrite IH, serve_counts.
    unfold counted. simpl filter.
    destruct (enters_handler env r
              && (counter_eqb c REQUESTS || counter_eqb c (own_counter r)));
      simpl List.length; lia.
Qed.

(** X7. The total counter stays the sum of the four endpoint counters:
    if it is so in a world, it is so after any sequence of requests. *)
Theorem counters_stay_consistent (rs : list (Env * Request)) : forall w : World,
  counters_add_up (metrics w) ->
  counters_add_up (metrics (serve_all rs w)).
Proof.
  induction rs as [|[env r] rs IH]; intros w H; [exact H|].
  simpl serve_all. apply IH. unfold counters_add_up in *.
  rewrite !serve_counts.
  destruct r as [|p| |]; simpl enters_handler;
    try destruct (StudentModel_validate env p); simpl in *; lia.
Qed.

(** ** The answers of the service *)

(** X8. Every answer of the service is of one of three kinds: 200 with
    the store untouched, 201 whose body is the document just added at
    the end of the collection, or 422 with the whole world (store,
    store calls, counters) unchanged. *)
Theorem answers_classified (env : Env) (r : Request) (w : World) (resp : Response) :
  fst (serve env r w) = Responded resp ->
  let w' := snd (serve env r w) in
  (status_code resp = 200%Z /\ students w' = students w /\ db_log w' = db_log w)
  \/ (status_code resp = 201%Z
      /\ exists d, body resp = Object d /\ students w' = students w ++ [d])
  \/ (status_code resp = 422%Z /\ w' = w).
Proof.
  destruct r as [|p| |]; intros H w'; unfold w'.
  - left. injection H as <-. repeat split.
  - destruct (StudentModel_validate env p) as [errs|m] eqn:V.
    + rewrite (serve_rejected env p w errs V) in *. injection H as <-.
      right. right. split; reflexivity.
    + rewrite (serve_validated env p w m V) in *.
      destruct (holds_id (VStr (ObjectId.str (id m))) (students w)) eqn:I.
      * rewrite (create_student_refused env m w I) in H. discriminate H.
      * rewrite (create_student_accepted env m w I) in *. injection H as <-.
        right. left. split; [reflexivity|]. now exists (jsonable_encoder m).
  - left. injection H as <-. repeat split.
  - discriminate H.
Qed.

(** ** What validation accepts and what it reports *)





(** ** Identifiers sent back *)

(** X11. The string the service prints for an identifier it validated
    is itself accepted by [PyObjectId.validate] and denotes the same
    identifier, and it is in canonical form: an [_id] taken from a
    response can be posted back. *)
Theorem PyObjectId_validate_roundtrip (v : string) (o : ObjectId) :
  PyObjectId_validate v = inr o ->
  PyObjectId_validate (ObjectId.str o) = inr o
  /\ ObjectId.is_canonical (ObjectId.str o) = true.
Proof.
  unfold PyObjectId_validate.
  destruct (ObjectId.is_valid v) eqn:Hv; simpl; [|discriminate].
  intros H. injection H as <-.
  rewrite ObjectId_str_valid. simpl.
  rewrite ObjectId_of_string_str.
  rewrite N.mod_small by now apply ObjectId_of_string_bound.
  split; [reflexivity | apply ObjectId_str_canonical].
Qed.

(** ** The partial-update model *)


(** X13. Whatever [StudentModel] validation accepts, [UpdateStudentModel]
    validation accepts too, with the same name, email, course and
    gpa. *)
Theorem StudentModel_payload_is_an_update (env : Env) (p : Payload) (m : StudentModel) :
  StudentModel_validate env p = inr m ->
  UpdateStudentModel_validate p
  = inr {| UpdateStudentModel.name := Some (name m);
           UpdateStudentModel.email := Some (email m);
           UpdateStudentModel.course := Some (course m);
           UpdateStudentModel.gpa := Some (gpa m) |}.
Proof.
  intros V. unfold StudentModel_validate in V.
  unfold UpdateStudentModel_validate.
  unfold validate_email, validate_gpa in V.
  destruct (validate_id env (p_id p)) as [?|i]; try discriminate;
    destruct (p_name p) as [n|]; simpl in V; try discriminate;
    destruct (p_email p) as [e|]; simpl in V; try discriminate;
    destruct (EmailStr_validate e) as [e'|]; simpl in V; try discriminate;
    destruct (p_course p) as [c|]; simpl in V; try discriminate;
    destruct (p_gpa p) as [g|]; simpl in V; try discriminate;
    destruct (Qle_bool g (4 # 1)); simpl in V; try discriminate.
  injection V as <-. reflexivity.
Qed.

(** ** Configuration *)

Lemma getenv_In (k v : string) (e : environ) :
  getenv k e = Some v -> In (k, v) e.
Proof.
  induction e as [|[k' v'] e IH]; simpl; [discriminate|].
  destruct (String.eqb k k') eqn:E.
  - apply String.eqb_eq in E. subst k'. intros H. injection H as ->. now left.
  - intros H. right. now apply IH.
Qed.

Lemma getenv_None (k : string) (e : environ) :
  getenv k e = None -> forall v, ~ In (k, v) e.
Proof.
  induction e as [|[k' v'] e IH]; simpl; [tauto|].
  destruct (String.eqb k k') eqn:E; [discriminate|].
  intros G v [H|H].
  - injection H as -> ->. now rewrite String.eqb_refl in E.
  - exact (IH G v H).
Qed.

(** X14. The production configuration loads exactly when the process
    environment sets [MONGODB_URL], and fails with a key error
    otherwise; the test configuration always loads, and whenever the
    production one loads the two name the same connection string,
    database and collection, the connection string being a value the
    environment binds to [MONGODB_URL]. *)
Theorem config_loads_iff (e : environ) :
  ((exists c, config_load e = inr c) <-> exists url, In ("MONGODB_URL", url) e)
  /\ (forall c, config_load e = inr c ->
        In ("MONGODB_URL", MONGODB_URL c) e
        /\ MONGODB_URL (test_config_load e) = MONGODB_URL c
        /\ MONGODB_DB (test_config_load e) = MONGODB_DB c
        /\ MONGODB_COLLECTION (test_config_load e) = MONGODB_COLLECTION c)
  /\ ((forall url, ~ In ("MONGODB_URL", url) e) ->
        config_load e = inl (KeyError "MONGODB_URL")).
Proof.
  unfold config_load, test_config_load.
  destruct (getenv "MONGODB_URL" e) as [u|] eqn:G.
  - apply getenv_In in G. split; [|split].
    + split; [intros _; now exists u | intros _; eexists; reflexivity].
    + intros c H. injection H as <-. simpl. repeat split. exact G.
    + intros H. exfalso. exact (H u G).
  - pose proof (getenv_None _ _ G) as N.
    split; [|split].
    + split; [intros [c H]; discriminate H | intros [url H]; exfalso; exact (N url H)].
    + intros c H. discriminate H.
    + reflexivity.
Qed.

(** ** Students posted without an identifier *)

(** X15. Nothing but the identifier makes a student unique: the same
    payload posted twice without an identifier is stored twice, each
    time answered with 201, when the two identifiers the default factory
    made print differently and are free in the store. The two stored
    documents differ in [_id] only. *)
Theorem same_student_stored_twice
  (env env' : Env) (p : Payload) (w : World) (n e e' c : string) (g : Q) :
  p_id p = None ->
  p_name p = Some n ->
  p_email p = Some e ->
  EmailStr_validate e = Some e' ->
  p_course p = Some c ->
  p_gpa p = Some g ->
  (g <= 4 # 1)%Q ->
  ObjectId.str (new_PyObjectId env) <> ObjectId.str (new_PyObjectId env') ->
  holds_id (VStr (ObjectId.str (new_PyObjectId env))) (students w) = false ->
  holds_id (VStr (ObjectId.str (new_PyObjectId env'))) (students w) = false ->
  let doc (o : ObjectId) :=
    jsonable_encoder {| id := o; name := n; email := e'; course := c; gpa := g |} in
  let w1 := snd (serve env (POST_api_student p) w) in
  fst (serve env (POST_api_student p) w)
    = Responded {| status_code := 201; body := Object (doc (new_PyObjectId env)) |}
  /\ fst (serve env' (POST_api_student p) w1)
     = Responded {| status_code := 201; body := Object (doc (new_PyObjectId env')) |}
  /\ students (snd (serve env' (POST_api_student p) w1))
     = students w ++ [doc (new_PyObjectId env); doc (new_PyObjectId env')].
Proof.
  intros Hp Hn He Hm Hc Hg Hle Hd H1 H2 doc w1.
  assert (Hid : match p_id p with
                | Some v => ObjectId.is_valid v = true
                | None => True
                end) by now rewrite Hp.
  assert (R : forall x, request_id x p = new_PyObjectId x).
  { intros x. unfold request_id. now rewrite Hp. }
  pose proof (StudentModel_validate_accepts env p n e e' c g Hid Hn He Hm Hc Hg Hle) as V.
  pose proof (StudentModel_validate_accepts env' p n e e' c g Hid Hn He Hm Hc Hg Hle) as V'.
  rewrite R in V, V'.
  assert (E1 : serve env (POST_api_student p) w
               = (Responded {| status_code := 201;
                               body := Object (doc (new_PyObjectId env)) |},
                  snd (serve env (POST_api_student p) w))
               /\ students w1 = students w ++ [doc (new_PyObjectId env)]).
  { unfold w1. rewrite (serve_validated env p w _ V).
    rewrite create_student_accepted by exact H1. split; reflexivity. }
  destruct E1 as [E1 S1].
  assert (F : holds_id (VStr (ObjectId.str (new_PyObjectId env'))) (students w1) = false).
  { rewrite S1, holds_id_app, H2, matches_id. simpl.
    apply String.eqb_neq. exact Hd. }
  split; [now rewrite E1|].
  rewrite (serve_validated env' p w1 _ V').
  rewrite create_student_accepted by exact F.
  split; [reflexivity|]. simpl. rewrite S1, <- app_assoc. reflexivity.
Qed.

End Service.

(** ** Concrete runs *)





(** Against C5 as stated: the test student posted without an identifier
    is stored under the identifier the model's default factory made
    (ending in d0), not under the one the store had ready (ending in
    d1). *)
Lemma store_generates_no_identifier :
  students (snd (serve sample_EmailStr_validate sample_env
                   (POST_api_student jane_doe_no_id) world0))
  = [ [ ("_id", VStr "64b7f3a2c1d4e5f6a7b8c9d0");
        ("name", VStr "Jane Doe");
        ("email", VStr "jdoe@example.com");
        ("course", VStr "Experiments, Science, and Fashion in Nanophotonics");
        ("gpa", VNum (3 # 1)) ] ]
  /\ ObjectId.str (new_PyObjectId sample_env) = "64b7f3a2c1d4e5f6a7b8c9d0"
  /\ ObjectId.str (driver_ObjectId sample_env) = "64b7f3a2c1d4e5f6a7b8c9d1".
Proof. vm_compute. repeat split; reflexivity. Defined.

Lemma identifier_comes_from_model_witness :
  lookup "_id"
    (jsonable_encoder {| id := new_PyObjectId sample_env; name := "Jane Doe";
                         email := "jdoe@example.com";
                         course := "Experiments, Science, and Fashion in Nanophotonics";
                         gpa := (3 # 1)%Q |})
  = Some (VStr (ObjectId.str (new_PyObjectId sample_env))).
Proof.
  refine (proj1 (identifier_comes_from_model sample_EmailStr_validate sample_env
                   jane_doe_no_id world0 _ _ _ _ _
                   eq_refl eq_refl eq_refl eq_refl eq_refl _)).
  unfold Qle. simpl. lia.
Defined.

(** Against C6 as stated: a payload whose name and course are the empty
    string is not rejected; it is stored and answered with 201. *)
Lemma empty_name_and_course_accepted :
  fst (serve sample_EmailStr_validate sample_env (POST_api_student nameless) world0)
  = Responded
      {| status_code := 201;
         body := Object [ ("_id", VStr "64b7f3a2c1d4e5f6a7b8c9d0");
                          ("name", VStr "");
                          ("email", VStr "jdoe@example.com");
                          ("course", VStr "");
                          ("gpa", VNum (3 # 1)) ] |}.
Proof. vm_compute. reflexivity. Defined.


(** ** Concrete runs of the further properties *)

(** Jane Doe posted again once she is stored. *)
Lemma taken_identifier_faults_witness :
  fst (serve sample_EmailStr_validate sample_env (POST_api_student jane_doe)
         (snd (serve sample_EmailStr_validate sample_env
                 (POST_api_student jane_doe) world0)))
  = Fault (DuplicateKeyError (VStr "62422b3329661ce0eab2066f")).
Proof.
  refine (proj1 (taken_identifier_faults sample_EmailStr_validate sample_env jane_doe
                   (snd (serve sample_EmailStr_validate sample_env
                           (POST_api_student jane_doe) world0))
                   {| id := 0x62422b3329661ce0eab2066f%N;
                      name := "Jane Doe";
                      email := "jdoe@example.com";
                      course := "Experiments, Science, and Fashion in Nanophotonics";
                      gpa := (3 # 1)%Q |}
                   _ _)).
  - vm_compute. reflexivity.
  - vm_compute. reflexivity.
Defined.

Lemma second_post_is_refused_witness :
  students (snd (serve sample_EmailStr_validate later_env (POST_api_student jane_doe)
                   (snd (serve sample_EmailStr_validate sample_env
                           (POST_api_student jane_doe) world0))))
  = students world0
    ++ [ jsonable_encoder
           {| id := ObjectId.of_string "62422b3329661ce0eab2066f";
              name := "Jane Doe";
              email := "jdoe@example.com";
              course := "Experiments, Science, and Fashion in Nanophotonics";
              gpa := (3 # 1)%Q |} ].
Proof.
  refine (proj2 (proj2 (second_post_is_refused sample_EmailStr_validate
                          sample_env later_env jane_doe world0
                          _ _ _ _ _ _
                          eq_refl _ eq_refl eq_refl eq_refl eq_refl eq_refl _ _))).
  - vm_compute. reflexivity.
  - unfold Qle. simpl. lia.
  - vm_compute. reflexivity.
Defined.

Lemma unique_ids_kept_witness :
  unique_ids (students (serve_all sample_EmailStr_validate sample_session world0)) = true.
Proof.
  apply (unique_ids_kept sample_EmailStr_validate sample_session world0).
  reflexivity.
Defined.

Lemma counters_stay_consistent_witness :
  counters_add_up (metrics (serve_all sample_EmailStr_validate sample_session world0)).
Proof.
  apply (counters_stay_consistent sample_EmailStr_validate sample_session world0).
  reflexivity.
Defined.

Lemma answers_classified_witness :
  (200 = 200 /\ students (snd (serve sample_EmailStr_validate sample_env GET_health world0))
                = students world0
   /\ db_log (snd (serve sample_EmailStr_validate sample_env GET_health world0))
      = db_log world0)%Z
  \/ (200 = 201
      /\ exists d, Object [("health", VStr "ok")] = Object d
                   /\ students (snd (serve sample_EmailStr_validate sample_env
                                       GET_health world0))
                      = students world0 ++ [d])%Z
  \/ (200 = 422
      /\ snd (serve sample_EmailStr_validate sample_env GET_health world0) = world0)%Z.
Proof.
  exact (answers_classified sample_EmailStr_validate sample_env GET_health world0
           {| status_code := 200; body := Object [("health", VStr "ok")] |} eq_refl).
Defined.

(** A token in capitals is printed back in canonical form and read as
    the same identifier. *)
Lemma PyObjectId_validate_roundtrip_witness :
  PyObjectId_validate (ObjectId.str 0x62422b3329661ce0eab2066f%N)
    = inr 0x62422b3329661ce0eab2066f%N
  /\ ObjectId.is_canonical (ObjectId.str 0x62422b3329661ce0eab2066f%N) = true.
Proof.
  apply (PyObjectId_validate_roundtrip "62422B3329661CE0EAB2066F").
  vm_compute. reflexivity.
Defined.

Lemma StudentModel_payload_is_an_update_witness :
  UpdateStudentModel_validate sample_EmailStr_validate jane_doe
  = inr {| UpdateStudentModel.name := Some "Jane Doe";
           UpdateStudentModel.email := Some "jdoe@example.com";
           UpdateStudentModel.course :=
             Some "Experiments, Science, and Fashion in Nanophotonics";
           UpdateStudentModel.gpa := Some (3 # 1)%Q |}.
Proof.
  refine (StudentModel_payload_is_an_update sample_EmailStr_validate sample_env jane_doe
            {| id := 0x62422b3329661ce0eab2066f%N;
               name := "Jane Doe";
               email := "jdoe@example.com";
               course := "Experiments, Science, and Fashion in Nanophotonics";
               gpa := (3 # 1)%Q |} _).
  vm_compute. reflexivity.
Defined.

Lemma same_student_stored_twice_witness :
  students (snd (serve sample_EmailStr_validate later_env (POST_api_student jane_doe_no_id)
                   (snd (serve sample_EmailStr_validate sample_env
                           (POST_api_student jane_doe_no_id) world0))))
  = students world0
    ++ [ jsonable_encoder
           {| id := new_PyObjectId sample_env;
              name := "Jane Doe";
              email := "jdoe@example.com";
              course := "Experiments, Science, and Fashion in Nanophotonics";
              gpa := (3 # 1)%Q |};
         jsonable_encoder
           {| id := new_PyObjectId later_env;
              name := "Jane Doe";
              email := "jdoe@example.com";
              course := "Experiments, Science, and Fashion in Nanophotonics";
              gpa := (3 # 1)%Q |} ].
Proof.
  refine (proj2 (proj2 (same_student_stored_twice sample_EmailStr_validate
                          sample_env later_env jane_doe_no_id world0
                          _ _ _ _ _
                          eq_refl eq_refl eq_refl eq_refl eq_refl eq_refl _ _ _ _))).
  - unfold Qle. simpl. lia.
  - vm_compute. discriminate.
  - vm_compute. reflexivity.
  - vm_compute. reflexivity.
Defined.
